(** * github3.events: the Event decoder and its payload handlers

    A shallow embedding of [src/github3/events.py].  Python values are an
    inductive type of JSON-shaped data, dictionaries are finite maps with
    string keys, exceptions are an error monad, and the in-place update of
    the payload dictionary is threaded explicitly: every handler returns
    both the object it returns and the argument object as it stands after
    the call. *)

From Stdlib Require Import String Ascii ZArith List Bool Lia.
From stdpp Require Import base option gmap strings list fin_maps sorting.

Local Set Warnings "-register-all".
Local Open Scope string_scope.

(** ** Python values *)

(** The classes whose constructors the module calls.  They live in other
    modules of the package ([users], [orgs], [repos], [gists], [issues],
    [pulls]). *)
Inductive entity :=
| User | Organization | RepoComment | Repository | Gist | Issue
| IssueComment | PullRequest | ReviewComment | Release | Team.

(** JSON-decoded data, plus the two kinds of objects the module builds
    out of it: entities (carrying the JSON they were built from) and
    parsed timestamps.  JSON numbers are taken to be integers, and a
    string is a sequence of one-byte characters. *)
Inductive value :=
| VNone
| VBool (b : bool)
| VInt (n : Z)
| VStr (s : string)
| VList (l : list value)
| VDict (d : gmap string value)
| VObj (c : entity) (json : value)
| VDatetime (year month day hour minute second : nat).

(** The exceptions that can surface from this module. *)
Inductive exn := AttributeError | KeyError | TypeError.

(** The outcome of a call: it returns a value, it raises, or, when it
    has handed a collaborator outside this module an argument for which
    nothing says what the collaborator does, it is left open. *)
Inductive result (A : Type) :=
| Ok (a : A)
| Raise (e : exn)
| Unspecified.
Arguments Ok {A} a.
Arguments Raise {A} e.
Arguments Unspecified {A}.

#[export] Instance result_ret : MRet result := fun A a => Ok a.
#[export] Instance result_bind : MBind result := fun A B k m =>
  match m with
  | Ok a => k a
  | Raise e => Raise e
  | Unspecified => Unspecified
  end.

(** ** The Python primitives the module uses *)

(** Truth value of an object in a condition: [None], [False], [0], the
    empty string, list and dict are false; objects without [__bool__] or
    [__len__] are true. *)
Definition truthy (v : value) : bool :=
  match v with
  | VNone => false
  | VBool b => b
  | VInt n => negb (n =? 0)%Z
  | VStr s => negb (String.eqb s "")
  | VList l => match l with [] => false | _ => true end
  | VDict d => negb (size d =? 0)%nat
  | VObj _ _ => true
  | VDatetime _ _ _ _ _ _ => true
  end.

(** [d.get(k)] on a dictionary: [None] when the key is missing. *)
Definition dict_get (d : gmap string value) (k : string) : value :=
  default VNone (d !! k).

(** [x.get(k)] on an arbitrary object: only dictionaries have the method. *)
Definition py_get (x : value) (k : string) : result value :=
  match x with
  | VDict d => Ok (dict_get d k)
  | _ => Raise AttributeError
  end.

(** [x[k]] with a string key: [KeyError] on a dictionary without the key,
    [TypeError] on anything that is not a dictionary. *)
Definition py_getitem (x : value) (k : string) : result value :=
  match x with
  | VDict d => match d !! k with Some v => Ok v | None => Raise KeyError end
  | _ => Raise TypeError
  end.

(** [x[k] = v], giving the object after the assignment. *)
Definition py_setitem (x : value) (k : string) (v : value) : result value :=
  match x with
  | VDict d => Ok (VDict (<[k := v]> d))
  | _ => Raise TypeError
  end.

(** [s.split(sep)] for a one-character separator: every occurrence of the
    separator cuts, and empty pieces are kept. *)
Fixpoint str_split (sep : ascii) (s : string) : list string :=
  match s with
  | EmptyString => [EmptyString]
  | String c s' =>
      if Ascii.eqb c sep then EmptyString :: str_split sep s'
      else match str_split sep s' with
           | [] => [String c EmptyString]
           | w :: ws => String c w :: ws
           end
  end.

(** [x.split('/')] on an arbitrary object: only strings have the method. *)
Definition py_split (x : value) (sep : ascii) : result (list string) :=
  match x with
  | VStr s => Ok (str_split sep s)
  | _ => Raise AttributeError
  end.

(** [s[:-n]]: the string without its last [n] characters, empty when the
    string has at most [n] of them. *)
Definition str_drop_last (n : nat) (s : string) : string :=
  substring 0 (String.length s - n) s.

(** Whether an object can be used as a dictionary key. *)
Definition hashable (v : value) : bool :=
  match v with
  | VList _ | VDict _ => false
  | _ => true
  end.

(** ** Collaborators outside this module *)

(** Modelled from the spec: the constructors of the richer entities
    ([User], [Organization], [Repository], the comment classes, [Issue],
    [PullRequest], [Gist], [Release], [Team]) are defined in other modules
    of the package.  Each accepts a raw nested mapping and an optional
    enclosing-context reference, which this module passes as [None] or
    leaves out, so the entity is built detached and the reference is not
    kept in the model.  What a constructor does with an argument that is
    not a mapping is not stated, and is left open. *)
Definition construct (c : entity) (json : value) : result value :=
  match json with
  | VDict _ => Ok (VObj c json)
  | _ => Unspecified
  end.

Definition is_digit (c : ascii) : bool :=
  (48 <=? nat_of_ascii c)%nat && (nat_of_ascii c <=? 57)%nat.

Definition digit (c : ascii) : nat := nat_of_ascii c - 48.

Fixpoint digits (acc : nat) (cs : list ascii) : option nat :=
  match cs with
  | [] => Some acc
  | c :: cs' => if is_digit c then digits (10 * acc + digit c) cs' else None
  end.

Definition leap (y : nat) : bool :=
  ((y mod 4 =? 0) && negb (y mod 100 =? 0) || (y mod 400 =? 0))%nat.

Definition days_in_month (y m : nat) : nat :=
  match m with
  | 2 => if leap y then 29 else 28
  | 4 | 6 | 9 | 11 => 30
  | _ => 31
  end.

(** The date-time format of the remote service: [YYYY-MM-DDTHH:MM:SSZ]. *)
Definition parse_instant (s : string) : option value :=
  match list_ascii_of_string s with
  | [y1; y2; y3; y4; d1; m1; m2; d2; a1; a2; t; h1; h2; c1; n1; n2; c2; s1; s2; z] =>
      if Ascii.eqb d1 "-" && Ascii.eqb d2 "-" && Ascii.eqb t "T"
         && Ascii.eqb c1 ":" && Ascii.eqb c2 ":" && Ascii.eqb z "Z"
      then
        y ← digits 0 [y1; y2; y3; y4];
        m ← digits 0 [m1; m2];
        d ← digits 0 [a1; a2];
        h ← digits 0 [h1; h2];
        n ← digits 0 [n1; n2];
        sec ← digits 0 [s1; s2];
        if ((1 <=? y) && (1 <=? m) && (m <=? 12) && (1 <=? d)
            && (d <=? days_in_month y m) && (h <? 24) && (n <? 60)
            && (sec <? 60))%nat
        then Some (VDatetime y m d h n sec) else None
      else None
  | _ => None
  end.

(** Modelled from the spec: [_strptime] is inherited from [GitHubObject]
    in [models].  It is a permissive timestamp parser: it accepts the
    remote service's date-time string and returns the parsed instant, and
    it returns no value on absent or unparseable input instead of
    failing. *)
Definition _strptime (time_str : value) : value :=
  match time_str with
  | VStr s => default VNone (parse_instant s)
  | _ => VNone
  end.

(** ** Payload handlers *)

(** A handler is applied to the object stored under the event's
    ["payload"] key.  It yields the object it returns together with the
    argument object as it stands after the call: the transforms below
    assign into the argument and return that same object. *)
Definition handler : Type := value → result (value * value).

Definition _commitcomment : handler := fun payload =>
  c ← py_get payload "comment";
  payload ← (if truthy c
             then raw ← py_getitem payload "comment";
                  e ← construct RepoComment raw;
                  py_setitem payload "comment" e
             else Ok payload);
  Ok (payload, payload).

Definition _follow : handler := fun payload =>
  c ← py_get payload "target";
  payload ← (if truthy c
             then raw ← py_getitem payload "target";
                  e ← construct User raw;
                  py_setitem payload "target" e
             else Ok payload);
  Ok (payload, payload).

Definition _forkev : handler := fun payload =>
  c ← py_get payload "forkee";
  payload ← (if truthy c
             then raw ← py_getitem payload "forkee";
                  e ← construct Repository raw;
                  py_setitem payload "forkee" e
             else Ok payload);
  Ok (payload, payload).

Definition _gist : handler := fun payload =>
  c ← py_get payload "gist";
  payload ← (if truthy c
             then raw ← py_getitem payload "gist";
                  e ← construct Gist raw;
                  py_setitem payload "gist" e
             else Ok payload);
  Ok (payload, payload).

Definition _issuecomm : handler := fun payload =>
  c ← py_get payload "issue";
  payload ← (if truthy c
             then raw ← py_getitem payload "issue";
                  e ← construct Issue raw;
                  py_setitem payload "issue" e
             else Ok payload);
  c ← py_get payload "comment";
  payload ← (if truthy c
             then raw ← py_getitem payload "comment";
                  e ← construct IssueComment raw;
                  py_setitem payload "comment" e
             else Ok payload);
  Ok (payload, payload).

Definition _issueevent : handler := fun payload =>
  c ← py_get payload "issue";
  payload ← (if truthy c
             then raw ← py_getitem payload "issue";
                  e ← construct Issue raw;
                  py_setitem payload "issue" e
             else Ok payload);
  Ok (payload, payload).

Definition _member : handler := fun payload =>
  c ← py_get payload "member";
  payload ← (if truthy c
             then raw ← py_getitem payload "member";
                  e ← construct User raw;
                  py_setitem payload "member" e
             else Ok payload);
  Ok (payload, payload).

Definition _pullreqev : handler := fun payload =>
  c ← py_get payload "pull_request";
  payload ← (if truthy c
             then raw ← py_getitem payload "pull_request";
                  e ← construct PullRequest raw;
                  py_setitem payload "pull_request" e
             else Ok payload);
  Ok (payload, payload).

Definition _pullreqcomm : handler := fun payload =>
  pull ← py_get payload "pull_request";
  payload ← (if truthy pull
             then e ← construct PullRequest pull;
                  py_setitem payload "pull_request" e
             else Ok payload);
  comment ← py_get payload "comment";
  payload ← (if truthy comment
             then e ← construct ReviewComment comment;
                  py_setitem payload "comment" e
             else Ok payload);
  Ok (payload, payload).

Definition _release : handler := fun payload =>
  release ← py_get payload "release";
  payload ← (if truthy release
             then e ← construct Release release;
                  py_setitem payload "release" e
             else Ok payload);
  Ok (payload, payload).

Definition _team : handler := fun payload =>
  c ← py_get payload "team";
  payload ← (if truthy c
             then raw ← py_getitem payload "team";
                  e ← construct Team raw;
                  py_setitem payload "team" e
             else Ok payload);
  c ← py_get payload "repo";
  payload ← (if truthy c
             then raw ← py_getitem payload "repo";
                  e ← construct Repository raw;
                  py_setitem payload "repo" e
             else Ok payload);
  c ← py_get payload "user";
  payload ← (if truthy c
             then raw ← py_getitem payload "user";
                  e ← construct User raw;
                  py_setitem payload "user" e
             else Ok payload);
  Ok (payload, payload).

Definition identity : handler := fun x => Ok (x, x).

(** Lookup in a dictionary literal, kept as the list of its items. *)
Fixpoint assoc {A} (k : string) (items : list (string * A)) : option A :=
  match items with
  | [] => None
  | (k', v) :: items' => if String.eqb k k' then Some v else assoc k items'
  end.

(** The [_payload_handlers] literal: its items, in source order. *)
Definition _payload_handlers : list (string * handler) :=
  [ ("CommitCommentEvent", _commitcomment);
    ("CreateEvent", identity);
    ("DeleteEvent", identity);
    ("FollowEvent", _follow);
    ("ForkEvent", _forkev);
    ("ForkApplyEvent", identity);
    ("GistEvent", _gist);
    ("GollumEvent", identity);
    ("IssueCommentEvent", _issuecomm);
    ("IssuesEvent", _issueevent);
    ("MemberEvent", _member);
    ("PublicEvent", fun x => Ok (VStr "", x));
    ("PullRequestEvent", _pullreqev);
    ("PullRequestReviewCommentEvent", _pullreqcomm);
    ("PushEvent", identity);
    ("ReleaseEvent", _release);
    ("StatusEvent", identity);
    ("TeamAddEvent", _team);
    ("WatchEvent", identity) ].

(** [_payload_handlers.get(key, dflt)]: an unhashable key raises, a key
    that is not one of the strings of the table gives the default. *)
Definition handlers_get (key : value) (dflt : handler) : result handler :=
  if hashable key then
    match key with
    | VStr s => Ok (default dflt (assoc s _payload_handlers))
    | _ => Ok dflt
    end
  else Raise TypeError.

(** The Dispatcher of the spec: look the type up, apply what was found. *)
Definition transform (eventType : value) (rawPayload : value) : result (value * value) :=
  h ← handlers_get eventType identity;
  h rawPayload.

(** ** The Event class *)

Module Event.

Record t := Build {
  actor : value;
  created_at : value;
  id : value;
  org : value;
  type : value;
  payload : value;
  repo : option (list string);
  public : value;
}.

(** [_update_attributes(self, event)] fills the attributes from the raw
    mapping.  It yields the Event together with the raw mapping as it
    stands afterwards: the handler may have assigned into the dictionary
    stored under ["payload"]. *)
Definition _update_attributes (event : gmap string value)
  : result (t * gmap string value) :=
  actor ← (if truthy (dict_get event "actor")
           then construct User (dict_get event "actor")
           else Ok VNone);
  let created_at := _strptime (dict_get event "created_at") in
  let id := dict_get event "id" in
  org ← (if truthy (dict_get event "org")
         then construct Organization (dict_get event "org")
         else Ok VNone);
  let type := dict_get event "type" in
  handler ← handlers_get type identity;
  '(payload, arg) ← handler (dict_get event "payload");
  let event' := match event !! "payload" with
                | Some _ => <["payload" := arg]> event
                | None => event
                end in
  repo ← match dict_get event' "repo" with
         | VNone => Ok None
         | r => name ← py_getitem r "name";
                parts ← py_split name "/"%char;
                Ok (Some parts)
         end;
  let public := dict_get event' "public" in
  Ok (Build actor created_at id org type payload repo public, event').

(** [_repr(self)]: [self.type[:-5]] put into the tag.  [None], booleans,
    integers, mappings and entities cannot be sliced.  A list could, but
    an Event never holds one as its type: the handler lookup raises on an
    unhashable key before [_update_attributes] returns. *)
Definition _repr (self : t) : result string :=
  match type self with
  | VStr s => Ok ("<Event [" +:+ str_drop_last 5 s +:+ "]>")
  | _ => Raise TypeError
  end.

End Event.

(** [Event(rawEvent)], the [decode] of the spec: the attributes are filled
    from the raw mapping; an object without [get] cannot be decoded. *)
Definition decode (rawEvent : value) : result (Event.t * value) :=
  match rawEvent with
  | VDict event =>
      '(e, event') ← Event._update_attributes event;
      Ok (e, VDict event')
  | _ => Raise AttributeError
  end.

(** ** The dispatch table of the spec *)

(** The table of section 4.1 of the spec: for each event type, the nested
    keys that are replaced and the entity each becomes.  Types that are
    not listed replace nothing. *)
Definition promoted_items : list (string * list (string * entity)) :=
  [ ("CommitCommentEvent", [("comment", RepoComment)]);
    ("FollowEvent", [("target", User)]);
    ("ForkEvent", [("forkee", Repository)]);
    ("GistEvent", [("gist", Gist)]);
    ("IssueCommentEvent", [("issue", Issue); ("comment", IssueComment)]);
    ("IssuesEvent", [("issue", Issue)]);
    ("MemberEvent", [("member", User)]);
    ("PullRequestEvent", [("pull_request", PullRequest)]);
    ("PullRequestReviewCommentEvent",
       [("pull_request", PullRequest); ("comment", ReviewComment)]);
    ("ReleaseEvent", [("release", Release)]);
    ("TeamAddEvent", [("team", Team); ("repo", Repository); ("user", User)]) ].

Definition promoted (t : string) : list (string * entity) :=
  default [] (assoc t promoted_items).

(** The registered type names. *)
Definition registered : list string := _payload_handlers.*1.

(** The shared pattern of the spec: if the key is present and non-empty,
    replace its value by the entity decoded from it. *)
Definition promote (k : string) (c : entity) (payload : value) : result value :=
  v ← py_get payload k;
  if truthy v then e ← construct c v; py_setitem payload k e else Ok payload.

Fixpoint promote_all (ks : list (string * entity)) (payload : value) : result value :=
  match ks with
  | [] => Ok payload
  | (k, c) :: ks' => p ← promote k c payload; promote_all ks' p
  end.

(** The Dispatcher as the spec's table describes it. *)
Definition table_transform (t : string) (x : value) : result (value * value) :=
  if String.eqb t "PublicEvent" then Ok (VStr "", x)
  else p ← promote_all (promoted t) x; Ok (p, p).

(** What the table's transform leaves in a mapping. *)
Fixpoint promote_map (ks : list (string * entity)) (d : gmap string value)
  : gmap string value :=
  match ks with
  | [] => d
  | (k, c) :: ks' =>
      promote_map ks'
        (if truthy (dict_get d k) then <[k := VObj c (dict_get d k)]> d else d)
  end.

Definition is_mapping (v : value) : bool :=
  match v with VDict _ => true | _ => false end.

(** A value the conditional construction goes through with: absent or
    falsy (skipped), or a nested mapping (accepted by the constructor). *)
Definition nested_ok (v : value) : bool := negb (truthy v) || is_mapping v.

(** Whether the transform of type [ty] finds a key to replace in [x]. *)
Definition replaces (ty x : value) : bool :=
  match ty, x with
  | VStr t, VDict d => existsb (fun kc => truthy (dict_get d kc.1)) (promoted t)
  | _, _ => false
  end.

(** The spec's reading of the repository name: cut at the first
    separator only. *)
Fixpoint split_first (sep : ascii) (s : string) : option (string * string) :=
  match s with
  | EmptyString => None
  | String c s' =>
      if Ascii.eqb c sep then Some (EmptyString, s')
      else '(a, b) ← split_first sep s'; Some (String c a, b)
  end.

(** The spec's reading of the tag: the type without a trailing ["Event"]. *)
Definition ends_with (suffix s : string) : bool :=
  String.eqb (substring (String.length s - String.length suffix)
                        (String.length suffix) s) suffix
  && (String.length suffix <=? String.length s)%nat.

Definition strip_suffix (suffix s : string) : string :=
  if ends_with suffix s
  then substring 0 (String.length s - String.length suffix) s
  else s.

Fixpoint count_char (c : ascii) (s : string) : nat :=
  match s with
  | EmptyString => 0
  | String a s' => (if Ascii.eqb a c then 1 else 0) + count_char c s'
  end.

(** ** The decoder, field by field *)

(** [C(v) if v else None], when the constructor accepts [v]. *)
Definition entity_value (c : entity) (v : value) : value :=
  if truthy v then VObj c v else VNone.

(** The repo attribute for a raw repo that decodes. *)
Definition repo_value (r : value) : option (list string) :=
  match r with
  | VDict d =>
      match d !! "name" with
      | Some (VStr s) => Some (str_split "/" s)
      | _ => None
      end
  | _ => None
  end.

(** The raw repo decodes: it is absent, or a mapping whose name is a
    string. *)
Definition repo_ok (r : value) : bool :=
  match r with
  | VNone => true
  | VDict d => match d !! "name" with Some (VStr _) => true | _ => false end
  | _ => false
  end.

(** The fields besides the payload go through: actor and org are absent,
    falsy or mappings, and the repo is absent or a mapping with a name
    string. *)
Definition fields_ok (event : gmap string value) : bool :=
  nested_ok (dict_get event "actor") && nested_ok (dict_get event "org")
  && repo_ok (dict_get event "repo").

(** The raw mapping after the handler has run on its payload. *)
Definition write_back (event : gmap string value) (arg : value)
  : gmap string value :=
  match event !! "payload" with
  | Some _ => <["payload" := arg]> event
  | None => event
  end.

(** The Event built from a raw mapping, given the type and the payload
    the handler returned. *)
Definition decoded (event : gmap string value) (ty payload : value) : Event.t :=
  Event.Build (entity_value User (dict_get event "actor"))
              (_strptime (dict_get event "created_at"))
              (dict_get event "id")
              (entity_value Organization (dict_get event "org"))
              ty payload
              (repo_value (dict_get event "repo"))
              (dict_get event "public").

(** Every value a transform of type [t] would hand to a constructor is a
    nested mapping. *)
Definition payload_ok (t : string) (d : gmap string value) : bool :=
  forallb (fun kc => nested_ok (dict_get d kc.1)) (promoted t).

(** ** Example inputs *)

(** A dictionary literal. *)
Definition dict (items : list (string * value)) : gmap string value :=
  list_to_map items.

(** A commit comment event, before and after a first decoding. *)
Definition commit_comment_event : gmap string value :=
  dict [ ("type", VStr "CommitCommentEvent");
         ("payload",
          VDict (dict [("comment", VDict (dict [("id", VInt 1)]))])) ].

(** A push event: its type has an identity handler. *)
Definition push_event : gmap string value :=
  dict [ ("type", VStr "PushEvent");
         ("payload", VDict (dict [("size", VInt 2)]));
         ("repo", VDict (dict [("name", VStr "octocat/Hello-World")])) ].

(** The payload of the spec's selective-replacement example. *)
Definition issue_comment_payload : gmap string value :=
  dict [ ("issue", VDict (dict [("number", VInt 7)]));
         ("comment", VDict (dict [("body", VStr "hello")]));
         ("extra", VStr "x") ].

Definition commit_comment_event_after : gmap string value :=
  dict [ ("type", VStr "CommitCommentEvent");
         ("payload",
          VDict (dict [("comment",
                        VObj RepoComment (VDict (dict [("id", VInt 1)])))])) ].

(** ** The rest of the module *)

(** The order of strings in a comparison: lexicographic on the
    characters. *)
Definition str_le (s1 s2 : string) : Prop := String.leb s1 s2 = true.

#[export] Instance str_le_dec s1 s2 : Decision (str_le s1 s2) :=
  decide (String.leb s1 s2 = true).

(** [sorted(xs)] on strings: the ascending rearrangement of [xs]. *)
Definition sorted (xs : list string) : list string := merge_sort str_le xs.

(** [Event.list_types()], a static method:
    [sorted(_payload_handlers.keys())]. *)
Definition list_types : list string := sorted (_payload_handlers.*1).

(** [C(v) if v else None], the conditional construction of the actor and
    the org. *)
Definition entity_or_none (c : entity) (v : value) : result value :=
  if truthy v then construct c v else Ok VNone.

(** The repo attribute from [event.get('repo')]: left at [None], or
    [tuple(repo['name'].split('/'))]. *)
Definition repo_attr (r : value) : result (option (list string)) :=
  match r with
  | VNone => Ok None
  | _ => name ← py_getitem r "name";
         parts ← py_split name "/"%char;
         Ok (Some parts)
  end.

(** [sep.join(pieces)]. *)
Fixpoint str_join (sep : string) (pieces : list string) : string :=
  match pieces with
  | [] => ""
  | w :: ws =>
      match ws with
      | [] => w
      | _ => w +:+ sep +:+ str_join sep ws
      end
  end.

(** The types whose handler reads keys of the payload: every registered
    type whose handler is neither [identity] nor the PublicEvent lambda. *)
Definition key_reading_types : list string :=
  [ "CommitCommentEvent"; "FollowEvent"; "ForkEvent"; "GistEvent";
    "IssueCommentEvent"; "IssuesEvent"; "MemberEvent"; "PullRequestEvent";
    "PullRequestReviewCommentEvent"; "ReleaseEvent"; "TeamAddEvent" ].

(** The registered types whose handler is [identity]. *)
Definition identity_types : list string :=
  [ "CreateEvent"; "DeleteEvent"; "ForkApplyEvent"; "GollumEvent";
    "PushEvent"; "StatusEvent"; "WatchEvent" ].



(** * Lemmas *)

Lemma bind_Ok {A B} (m : result A) (k : A → result B) b :
  m ≫= k = Ok b → ∃ a, m = Ok a ∧ k a = Ok b.
Proof. destruct m as [a | e |]; simpl; [eauto | discriminate ..]. Qed.

Lemma truthy_dict_get d k :
  truthy (dict_get d k) = true → d !! k = Some (dict_get d k).
Proof.
  unfold dict_get. destruct (d !! k); simpl; [done | discriminate].
Qed.

(** The subscript read after a successful truth test finds the value the
    test looked at. *)
Lemma promote_subscript k c payload :
  (v ← py_get payload k;
   if truthy v
   then raw ← py_getitem payload k; e ← construct c raw; py_setitem payload k e
   else Ok payload) = promote k c payload.
Proof.
  unfold promote. destruct payload; try reflexivity. simpl.
  destruct (truthy (dict_get d k)) eqn:Ht; [| reflexivity].
  by rewrite (truthy_dict_get _ _ Ht).
Qed.

Lemma promote_dict k c d :
  promote k c (VDict d) =
    if truthy (dict_get d k)
    then if is_mapping (dict_get d k)
         then Ok (VDict (<[k := VObj c (dict_get d k)]> d))
         else Unspecified
    else Ok (VDict d).
Proof.
  unfold promote. simpl. destruct (truthy (dict_get d k)); [| reflexivity].
  by destruct (dict_get d k).
Qed.

Lemma promote_all_not_mapping ks x :
  is_mapping x = false →
  promote_all ks x = match ks with [] => Ok x | _ => Raise AttributeError end.
Proof. destruct ks as [| [k c] ks]; [done |]. by destruct x. Qed.

Lemma dict_get_insert_ne (d : gmap string value) k k' v :
  k ≠ k' → dict_get (<[k := v]> d) k' = dict_get d k'.
Proof. intros. unfold dict_get. by rewrite lookup_insert_ne. Qed.

Lemma dict_get_insert_eq (d : gmap string value) k v :
  dict_get (<[k := v]> d) k = v.
Proof. unfold dict_get. by rewrite lookup_insert_eq. Qed.

(** Keys outside the list keep their entry. *)
Lemma promote_map_frame ks (d : gmap string value) k :
  k ∉ ks.*1 → promote_map ks d !! k = d !! k.
Proof.
  revert d. induction ks as [| [k' c] ks IH]; intros d Hk; [done |].
  simpl in *. apply not_elem_of_cons in Hk as [Hne Hk].
  rewrite IH by done. destruct (truthy (dict_get d k')); [| done].
  by rewrite lookup_insert_ne.
Qed.

(** A listed key holds the entity when its value was truthy, and keeps
    its entry otherwise. *)
Lemma dict_get_promote_map_frame ks (d : gmap string value) k :
  k ∉ ks.*1 → dict_get (promote_map ks d) k = dict_get d k.
Proof. intros. unfold dict_get. by rewrite promote_map_frame. Qed.

Lemma promote_map_listed ks (d : gmap string value) k c :
  NoDup ks.*1 → (k, c) ∈ ks →
  promote_map ks d !! k =
    if truthy (dict_get d k) then Some (VObj c (dict_get d k)) else d !! k.
Proof.
  revert d. induction ks as [| [k' c'] ks IH]; intros d Hnd Hin.
  { by apply elem_of_nil in Hin. }
  simpl in *. apply NoDup_cons in Hnd as [Hk' Hnd].
  apply elem_of_cons in Hin as [Heq | Hin].
  - inversion Heq; subst k' c'. rewrite promote_map_frame by done.
    destruct (truthy (dict_get d k)); [| done]. by rewrite lookup_insert_eq.
  - assert (k' ≠ k) as Hne.
    { intros ->. apply Hk'. apply list_elem_of_fmap. by exists (k, c). }
    rewrite IH by done. destruct (truthy (dict_get d k')); [| done].
    rewrite dict_get_insert_ne by done. by rewrite lookup_insert_ne.
Qed.

Lemma promote_map_falsy ks (d : gmap string value) :
  existsb (fun kc => truthy (dict_get d kc.1)) ks = false →
  promote_map ks d = d.
Proof.
  induction ks as [| [k c] ks IH]; simpl; [done |].
  intros [Hk Hks]%orb_false_iff. rewrite Hk. auto.
Qed.

(** The table's transform on a mapping whose listed values are absent,
    falsy or nested mappings. *)
Lemma promote_all_ok ks (d : gmap string value) :
  NoDup ks.*1 →
  (∀ k c, (k, c) ∈ ks → nested_ok (dict_get d k) = true) →
  promote_all ks (VDict d) = Ok (VDict (promote_map ks d)).
Proof.
  revert d. induction ks as [| [k c] ks IH]; intros d Hnd Hok; [done |].
  simpl in *. apply NoDup_cons in Hnd as [Hk Hnd].
  rewrite promote_dict.
  pose proof (Hok k c (list_elem_of_here _ _)) as Hkc. unfold nested_ok in Hkc.
  destruct (truthy (dict_get d k)) eqn:Ht; simpl in Hkc.
  - rewrite Hkc. simpl. apply IH; [done |]. intros k' c' Hin.
    rewrite dict_get_insert_ne.
    + apply (Hok k' c'). by apply list_elem_of_further.
    + intros ->. apply Hk. apply list_elem_of_fmap. by exists (k', c').
  - simpl. apply IH; [done |]. intros k' c' Hin.
    apply (Hok k' c'). by apply list_elem_of_further.
Qed.

(** What a successful run tells, and what a second run on the mapping it
    left does: it hands the constructor an entity as soon as it meets one
    the first run put there, and changes nothing when the first run
    replaced nothing. *)
Lemma promote_all_rerun ks (d : gmap string value) r :
  NoDup ks.*1 →
  promote_all ks (VDict d) = Ok r →
  r = VDict (promote_map ks d)
  ∧ (∀ k c, (k, c) ∈ ks → nested_ok (dict_get d k) = true)
  ∧ (existsb (fun kc => truthy (dict_get d kc.1)) ks = true →
     promote_all ks r = Unspecified).
Proof.
  revert d r. induction ks as [| [k c] ks IH]; intros d r Hnd Hrun.
  { simpl in *. split; [congruence |]. split; [| discriminate].
    intros k c Hin. by apply elem_of_nil in Hin. }
  simpl in Hnd. apply NoDup_cons in Hnd as [Hk Hnd].
  simpl in Hrun. rewrite promote_dict in Hrun.
  assert (∀ k' c', (k', c') ∈ ks → k ≠ k') as Hne.
  { intros k' c' Hin ->. apply Hk. apply list_elem_of_fmap. by exists (k', c'). }
  destruct (truthy (dict_get d k)) eqn:Ht.
  - destruct (is_mapping (dict_get d k)) eqn:Hm; [| discriminate].
    simpl in Hrun. destruct (IH _ _ Hnd Hrun) as (-> & Hok & _).
    split; [by simpl; rewrite Ht |]. split.
    + intros k' c' [Heq | Hin]%elem_of_cons.
      * inversion Heq; subst. unfold nested_ok. by rewrite Hm, orb_true_r.
      * rewrite <- (dict_get_insert_ne d k k' (VObj c (dict_get d k)))
          by by eapply Hne.
        by eapply Hok.
    + intros _. simpl. rewrite promote_dict.
      rewrite dict_get_promote_map_frame, dict_get_insert_eq by done.
      reflexivity.
  - simpl in Hrun. destruct (IH _ _ Hnd Hrun) as (-> & Hok & Hre).
    split; [by simpl; rewrite Ht |]. split.
    + intros k' c' [Heq | Hin]%elem_of_cons.
      * inversion Heq; subst. unfold nested_ok. by rewrite Ht.
      * by eapply Hok.
    + simpl. rewrite Ht. simpl. intros Hex. rewrite promote_dict.
      rewrite dict_get_promote_map_frame by done. rewrite Ht. simpl. auto.
Qed.

(** ** The handlers against the spec's table *)

Lemma assoc_None {A} k (items : list (string * A)) :
  k ∉ items.*1 → assoc k items = None.
Proof.
  induction items as [| [k' v] items IH]; [done |].
  intros [Hne Hk]%not_elem_of_cons. simpl.
  destruct (String.eqb_spec k k'); [done | auto].
Qed.

Lemma assoc_Some {A} k (items : list (string * A)) v :
  assoc k items = Some v → (k, v) ∈ items.
Proof.
  induction items as [| [k' v'] items IH]; [done |]. simpl.
  destruct (String.eqb_spec k k') as [-> | _].
  - intros [= ->]. apply list_elem_of_here.
  - intros H. by apply list_elem_of_further, IH.
Qed.

Lemma registered_NoDup : NoDup registered.
Proof. apply (bool_decide_unpack _). vm_compute. exact I. Qed.

Lemma registered_length : length registered = 19.
Proof. reflexivity. Qed.

Lemma promoted_subset t : t ∈ promoted_items.*1 → t ∈ registered.
Proof.
  intros Hin. simpl in Hin.
  repeat (apply elem_of_cons in Hin as [-> | Hin];
          [apply (bool_decide_unpack _); vm_compute; exact I |]).
  by apply elem_of_nil in Hin.
Qed.

Lemma promoted_unregistered t : t ∉ registered → promoted t = [].
Proof.
  intros Hout. unfold promoted. rewrite assoc_None; [done |].
  intros Hin. by apply Hout, promoted_subset.
Qed.

Lemma handlers_unregistered t :
  t ∉ registered → assoc t _payload_handlers = None.
Proof. apply assoc_None. Qed.

Lemma promoted_NoDup t : NoDup (promoted t).*1.
Proof.
  unfold promoted.
  destruct (assoc t promoted_items) as [ks |] eqn:Hl; [| apply NoDup_nil_2].
  apply assoc_Some in Hl. unfold promoted_items in Hl.
  repeat (apply elem_of_cons in Hl as [Heq | Hl];
          [inversion Heq; subst; apply (bool_decide_unpack _);
           vm_compute; exact I |]).
  by apply elem_of_nil in Hl.
Qed.

Lemma transform_str t x :
  transform (VStr t) x = default identity (assoc t _payload_handlers) x.
Proof.
  unfold transform, handlers_get. cbn [hashable]. unfold mbind, result_bind.
  reflexivity.
Qed.

Ltac run_handler :=
  repeat first
    [ progress cbn [mbind result_bind py_get py_getitem py_setitem construct
                    promote promote_all id]
    | match goal with
      | |- context [ truthy (dict_get ?d ?k) ] =>
          let E := fresh "Ht" in
          destruct (truthy (dict_get d k)) eqn:E;
          [rewrite ?(truthy_dict_get _ _ E) |]
      | |- context [ construct _ (dict_get ?d ?k) ] =>
          destruct (dict_get d k)
      end ].

(** Every handler of the table is the transform the spec's table
    describes for its type, and the fallback is the one of the unlisted
    types. *)
Lemma transform_table t x : transform (VStr t) x = table_transform t x.
Proof.
  rewrite transform_str.
  unfold table_transform, promoted, _payload_handlers, promoted_items.
  cbn [assoc].
  repeat match goal with
  | |- context [ String.eqb t ?s ] =>
      destruct (String.eqb_spec t s) as [-> | ?]
  end.
  all: cbn [assoc default from_option promote_all String.eqb Ascii.eqb
            Bool.eqb id mbind result_bind].
  all: try reflexivity.
  all: unfold _commitcomment, _follow, _forkev, _gist, _issuecomm,
         _issueevent, _member, _pullreqev, _pullreqcomm, _release, _team.
  all: destruct x; try reflexivity.
  all: run_handler; reflexivity.
Qed.

(** A second run of a transform on the object its first run left. *)
Lemma transform_rerun ty x r a :
  transform ty x = Ok (r, a) →
  (replaces ty x = true → transform ty a = Unspecified)
  ∧ (replaces ty x = false → a = x ∧ transform ty a = Ok (r, a)).
Proof.
  intros Hrun. destruct ty as [| b | n | t | l | d | c j | ]; try discriminate;
    try (injection Hrun as <- <-; split; [discriminate | done]).
  rewrite transform_table in Hrun |- *. unfold table_transform in *.
  destruct (String.eqb_spec t "PublicEvent") as [-> | Hne].
  { injection Hrun as <- <-. split; [by destruct x | done]. }
  apply bind_Ok in Hrun as (p & Hp & [= <- <-]).
  destruct (is_mapping x) eqn:Hx.
  - destruct x; try discriminate. cbn [replaces].
    destruct (promote_all_rerun _ _ _ (promoted_NoDup t) Hp) as (-> & _ & Hre).
    split.
    + intros Hex. by rewrite (Hre Hex).
    + intros Hex. rewrite (promote_map_falsy _ _ Hex) in Hp |- *.
      split; [done |]. by rewrite Hp.
  - rewrite promote_all_not_mapping in Hp by done.
    destruct (promoted t); [| discriminate]. injection Hp as <-.
    split; [by destruct x | done].
Qed.

(** Except for a PublicEvent, what a transform returns is the object it
    was given, as it stands after the call: the Event's payload is the
    very dictionary stored under the raw mapping's ["payload"] key. *)
Lemma transform_returns_argument ty x r a :
  transform ty x = Ok (r, a) → ty ≠ VStr "PublicEvent" → r = a.
Proof.
  intros Hrun Hne.
  destruct ty as [| b | n | t | l | d | c j | ]; try discriminate;
    try by injection Hrun as <- <-.
  rewrite transform_table in Hrun. unfold table_transform in Hrun.
  destruct (String.eqb_spec t "PublicEvent") as [-> | _]; [done |].
  by apply bind_Ok in Hrun as (p & _ & [= <- <-]).
Qed.

(** ** The decoder, step by step *)

Lemma dict_get_write_back event arg k :
  k ≠ "payload" → dict_get (write_back event arg) k = dict_get event k.
Proof.
  intros Hne. unfold write_back. destruct (event !! "payload"); [| done].
  by apply dict_get_insert_ne.
Qed.

Lemma write_back_same event :
  write_back event (dict_get event "payload") = event.
Proof.
  unfold write_back, dict_get.
  destruct (event !! "payload") eqn:Hp; [| done]. by apply insert_id.
Qed.

Lemma construct_ok c v :
  truthy v = true → nested_ok v = true → construct c v = Ok (VObj c v).
Proof. unfold nested_ok. intros ->. by destruct v. Qed.

Lemma construct_inv c v r : construct c v = Ok r → is_mapping v = true.
Proof. by destruct v. Qed.

Lemma update_attributes_ok event r a :
  fields_ok event = true →
  transform (dict_get event "type") (dict_get event "payload") = Ok (r, a) →
  Event._update_attributes event
  = Ok (decoded event (dict_get event "type") r, write_back event a).
Proof.
  unfold fields_ok. intros [[Ha Ho]%andb_true_iff Hr]%andb_true_iff Ht.
  unfold Event._update_attributes, decoded, entity_value.
  destruct (truthy (dict_get event "actor")) eqn:Hta;
    [rewrite (construct_ok User) by done |];
    (destruct (truthy (dict_get event "org")) eqn:Hto;
       [rewrite (construct_ok Organization) by done |]);
    cbn [mbind result_bind];
    unfold transform in Ht;
    destruct (handlers_get (dict_get event "type") identity) as [h | |];
      try discriminate;
    cbn [mbind result_bind] in Ht |- *; rewrite Ht; cbn [mbind result_bind];
    fold (write_back event a);
    rewrite !dict_get_write_back by done;
    unfold repo_ok, repo_value in *;
    destruct (dict_get event "repo") as [| | | | | d | |]; try discriminate;
      try reflexivity;
    cbn [py_getitem]; destruct (d !! "name") as [[| | | s | | | |] |];
      try discriminate; reflexivity.
Qed.

Lemma update_attributes_inv event ev event' :
  Event._update_attributes event = Ok (ev, event') →
  fields_ok event = true
  ∧ ∃ r a,
      transform (dict_get event "type") (dict_get event "payload") = Ok (r, a)
      ∧ ev = decoded event (dict_get event "type") r
      ∧ event' = write_back event a.
Proof.
  unfold Event._update_attributes. intros Hrun.
  apply bind_Ok in Hrun as (actor & Hactor & Hrun).
  apply bind_Ok in Hrun as (org & Horg & Hrun).
  apply bind_Ok in Hrun as (h & Hh & Hrun).
  apply bind_Ok in Hrun as ([r a] & Hra & Hrun).
  fold (write_back event a) in Hrun.
  rewrite !dict_get_write_back in Hrun by done.
  apply bind_Ok in Hrun as (repo & Hrepo & [= <- <-]).
  assert (nested_ok (dict_get event "actor") = true
          ∧ actor = entity_value User (dict_get event "actor")) as [Ha ->].
  { unfold nested_ok, entity_value.
    destruct (truthy (dict_get event "actor")); [| by injection Hactor as <-].
    rewrite (construct_inv _ _ _ Hactor). split; [done |].
    destruct (dict_get event "actor"); by try discriminate; injection Hactor. }
  assert (nested_ok (dict_get event "org") = true
          ∧ org = entity_value Organization (dict_get event "org")) as [Ho ->].
  { unfold nested_ok, entity_value.
    destruct (truthy (dict_get event "org")); [| by injection Horg as <-].
    rewrite (construct_inv _ _ _ Horg). split; [done |].
    destruct (dict_get event "org"); by try discriminate; injection Horg. }
  assert (repo_ok (dict_get event "repo") = true
          ∧ repo = repo_value (dict_get event "repo")) as [Hr ->].
  { unfold repo_ok, repo_value.
    destruct (dict_get event "repo") as [| | | | | d | |]; try discriminate;
      [by injection Hrepo as <- |].
    cbn [py_getitem] in Hrepo.
    destruct (d !! "name") as [[| | | s | | | |] |]; try discriminate.
    by injection Hrepo as <-. }
  split; [unfold fields_ok; by rewrite Ha, Ho, Hr |].
  exists r, a. split; [| done].
  unfold transform. rewrite Hh. exact Hra.
Qed.

Lemma decode_ok event r a :
  fields_ok event = true →
  transform (dict_get event "type") (dict_get event "payload") = Ok (r, a) →
  decode (VDict event)
  = Ok (decoded event (dict_get event "type") r, VDict (write_back event a)).
Proof.
  intros Hf Ht. unfold decode. by rewrite (update_attributes_ok _ _ _ Hf Ht).
Qed.

Lemma decode_inv event ev raw' :
  decode (VDict event) = Ok (ev, raw') →
  fields_ok event = true
  ∧ ∃ r a,
      transform (dict_get event "type") (dict_get event "payload") = Ok (r, a)
      ∧ ev = decoded event (dict_get event "type") r
      ∧ raw' = VDict (write_back event a).
Proof.
  unfold decode. intros ([ev0 event'] & Hrun & [= <- <-])%bind_Ok.
  apply update_attributes_inv in Hrun as (Hf & r & a & Ht & -> & ->).
  eauto 10.
Qed.

(** When the fields before the payload go through, an exception of the
    handler is the exception of the decoder. *)
Lemma decode_transform_raise event e :
  nested_ok (dict_get event "actor") = true →
  nested_ok (dict_get event "org") = true →
  transform (dict_get event "type") (dict_get event "payload") = Raise e →
  decode (VDict event) = Raise e.
Proof.
  intros Ha Ho Ht. unfold decode, Event._update_attributes.
  destruct (truthy (dict_get event "actor")) eqn:Hta;
    [rewrite (construct_ok User) by done |];
    (destruct (truthy (dict_get event "org")) eqn:Hto;
       [rewrite (construct_ok Organization) by done |]);
    cbn [mbind result_bind]; unfold transform in Ht;
    destruct (handlers_get (dict_get event "type") identity);
    cbn [mbind result_bind] in Ht |- *;
    try rewrite Ht; cbn [mbind result_bind]; congruence.
Qed.

Lemma update_attributes_steps event :
  Event._update_attributes event =
    actor ← entity_or_none User (dict_get event "actor");
    org ← entity_or_none Organization (dict_get event "org");
    ra ← transform (dict_get event "type") (dict_get event "payload");
    repo ← repo_attr (dict_get event "repo");
    Ok (Event.Build actor (_strptime (dict_get event "created_at"))
          (dict_get event "id") org (dict_get event "type") ra.1 repo
          (dict_get event "public"),
        write_back event ra.2).
Proof.
  unfold Event._update_attributes, entity_or_none, transform.
  destruct (if truthy (dict_get event "actor") then _ else _) as [actor | |];
    [| reflexivity ..].
  cbn [mbind result_bind].
  destruct (if truthy (dict_get event "org") then _ else _) as [org | |];
    [| reflexivity ..].
  cbn [mbind result_bind].
  destruct (handlers_get (dict_get event "type") identity) as [h | |];
    [| reflexivity ..].
  cbn [mbind result_bind].
  destruct (h (dict_get event "payload")) as [[r a] | |];
    [| reflexivity ..].
  cbn [mbind result_bind fst snd]. fold (write_back event a).
  rewrite !dict_get_write_back by done. unfold repo_attr.
  by destruct (dict_get event "repo").
Qed.

Lemma entity_or_none_ok c v :
  nested_ok v = true → entity_or_none c v = Ok (entity_value c v).
Proof.
  unfold nested_ok, entity_or_none, entity_value.
  destruct (truthy v); [| done]. by destruct v.
Qed.

Lemma decode_steps event :
  nested_ok (dict_get event "actor") = true →
  nested_ok (dict_get event "org") = true →
  decode (VDict event) =
    ra ← transform (dict_get event "type") (dict_get event "payload");
    repo ← repo_attr (dict_get event "repo");
    Ok (Event.Build (entity_value User (dict_get event "actor"))
          (_strptime (dict_get event "created_at"))
          (dict_get event "id")
          (entity_value Organization (dict_get event "org"))
          (dict_get event "type") ra.1 repo (dict_get event "public"),
        VDict (write_back event ra.2)).
Proof.
  intros Ha Ho. unfold decode. rewrite update_attributes_steps.
  rewrite (entity_or_none_ok _ _ Ha), (entity_or_none_ok _ _ Ho).
  cbn [mbind result_bind].
  destruct (transform _ _) as [[r a] | |]; [| reflexivity ..].
  cbn [mbind result_bind fst snd].
  by destruct (repo_attr _).
Qed.

(** Likewise when the handler has handed a constructor something the
    constructor is not known to accept. *)
Lemma decode_transform_unspecified event :
  nested_ok (dict_get event "actor") = true →
  nested_ok (dict_get event "org") = true →
  transform (dict_get event "type") (dict_get event "payload") = Unspecified →
  decode (VDict event) = Unspecified.
Proof.
  intros Ha Ho Ht. by rewrite (decode_steps _ Ha Ho), Ht.
Qed.

(** ** Strings *)

Lemma str_split_length sep s :
  length (str_split sep s) = S (count_char sep s).
Proof.
  induction s as [| c s IH]; [done |]. simpl.
  destruct (Ascii.eqb c sep); simpl; [by rewrite IH |].
  destruct (str_split sep s); simpl in *; [discriminate | done].
Qed.

(** The first piece of the split is what precedes the first separator;
    the remainder is split again. *)
Lemma str_split_first sep s a b :
  split_first sep s = Some (a, b) →
  str_split sep s = a :: str_split sep b.
Proof.
  revert a. induction s as [| c s IH]; intros a; [done |]. simpl.
  destruct (Ascii.eqb c sep); [by intros [= <- <-] |].
  destruct (split_first sep s) as [[a' b'] |]; [| done].
  intros [= <- <-]. by rewrite (IH a' eq_refl).
Qed.

Lemma str_split_no_sep sep s : count_char sep s = 0 → str_split sep s = [s].
Proof.
  induction s as [| c s IH]; [done |]. simpl.
  destruct (Ascii.eqb c sep); [done |]. intros H. by rewrite IH.
Qed.

Lemma split_first_count sep s :
  0 < count_char sep s →
  ∃ a b, split_first sep s = Some (a, b)
         ∧ count_char sep s = S (count_char sep b).
Proof.
  induction s as [| c s IH]; simpl; [lia |].
  destruct (Ascii.eqb c sep); simpl; [by eauto |].
  intros (a & b & -> & ->)%IH. simpl. eauto.
Qed.

Lemma substring_0_length n s :
  String.length (substring 0 n s) = Nat.min n (String.length s).
Proof.
  revert n. induction s as [| c s IH]; intros [| n]; simpl; auto.
Qed.

Lemma substring_all s : substring 0 (String.length s) s = s.
Proof. induction s as [| c s IH]; simpl; [done | by rewrite IH]. Qed.

Lemma substring_cut n m s :
  n + m = String.length s → substring 0 n s +:+ substring n m s = s.
Proof.
  revert s. induction n as [| n IH]; intros s Hlen.
  - simpl in Hlen. subst m.
    replace (substring 0 0 s) with EmptyString by by destruct s.
    apply substring_all.
  - destruct s as [| c s]; [discriminate |]. simpl in *.
    change (String c (substring 0 n s +:+ substring n m s) = String c s).
    f_equal. apply IH. lia.
Qed.

Lemma payload_ok_spec t d :
  payload_ok t d = true →
  ∀ k c, (k, c) ∈ promoted t → nested_ok (dict_get d k) = true.
Proof.
  unfold payload_ok. rewrite forallb_forall. intros Hall k c Hin.
  apply (Hall (k, c)). by apply list_elem_of_In.
Qed.

(** * The claims *)

(** C2 (failing inputs).  Decoding raises on a repo mapping without a
    name, and on a missing payload when the type's handler reads keys. *)
Theorem decode_raises_on_missing_fields :
  decode (VDict (dict [("repo", VDict (dict []))])) = Raise KeyError
  ∧ decode (VDict (dict [("type", VStr "CommitCommentEvent")]))
    = Raise AttributeError.
Proof. split; vm_compute; reflexivity. Qed.





(** C4 (counterexample).  A repository name with two separators decodes
    to three pieces, not to the pair cut at the first separator. *)
Lemma decode_repo_counterexample :
  let event := dict [("repo", VDict (dict [("name", VStr "a/b/c")]))] in
  decode (VDict event) = Ok (decoded event VNone VNone, VDict event)
  ∧ Event.repo (decoded event VNone VNone) = Some ["a"; "b"; "c"]
  ∧ split_first "/" "a/b/c" = Some ("a", "b/c")
  ∧ Some ["a"; "b"; "c"] ≠ Some ["a"; "b/c"].
Proof.
  split; [| split; [| split]];
    [vm_compute; reflexivity .. | discriminate].
Qed.

(** C4 (amended).  The repo attribute is the name cut at every
    separator: it has one piece more than the name has separators; its
    first piece is what precedes the first separator; and it is the pair
    (owner, name) when the name has exactly one separator. *)
Theorem decode_repo event rd s :
  event !! "repo" = Some (VDict rd) →
  rd !! "name" = Some (VStr s) →
  (∀ ev raw',
     decode (VDict event) = Ok (ev, raw') →
     Event.repo ev = Some (str_split "/" s))
  ∧ (nested_ok (dict_get event "actor") = true →
     nested_ok (dict_get event "org") = true →
     ∀ r a,
       transform (dict_get event "type") (dict_get event "payload")
       = Ok (r, a) →
       ∃ ev raw', decode (VDict event) = Ok (ev, raw')
                  ∧ Event.repo ev = Some (str_split "/" s))
  ∧ length (str_split "/" s) = S (count_char "/" s)
  ∧ (∀ owner rest,
       split_first "/" s = Some (owner, rest) →
       str_split "/" s = owner :: str_split "/" rest)
  ∧ (count_char "/" s = 1 →
     ∃ owner name, split_first "/" s = Some (owner, name)
                   ∧ str_split "/" s = [owner; name])
  ∧ str_split "/" "octocat/Hello-World" = ["octocat"; "Hello-World"].
Proof.
  intros Hrepo Hname.
  assert (dict_get event "repo" = VDict rd) as Hr
    by (unfold dict_get; by rewrite Hrepo).
  assert (repo_value (dict_get event "repo") = Some (str_split "/" s)) as Hv
    by (rewrite Hr; simpl; by rewrite Hname).
  split; [| split; [| split; [| split; [| split]]]].
  - by intros ev raw' (_ & r & a & _ & -> & _)%decode_inv.
  - intros Ha Ho r a Ht. eexists _, _. split.
    + apply decode_ok; [| done]. unfold fields_ok.
      rewrite Ha, Ho, Hr. simpl. by rewrite Hname.
    + done.
  - apply str_split_length.
  - intros owner rest. apply str_split_first.
  - intros Hone.
    destruct (split_first_count "/" s) as (a & b & Hab & Hc); [lia |].
    exists a, b. split; [done |].
    rewrite (str_split_first _ _ _ _ Hab), str_split_no_sep; [done | lia].
  - reflexivity.
Qed.

Lemma decode_repo_witness :
  Event.repo (decoded push_event (VStr "PushEvent")
                (dict_get push_event "payload"))
  = Some (str_split "/" "octocat/Hello-World").
Proof.
  refine (proj1 (decode_repo push_event
                   (dict [("name", VStr "octocat/Hello-World")])
                   "octocat/Hello-World" _ _)
                _ (VDict push_event) _);
    vm_compute; reflexivity.
Defined.

(** C5.  A transform touches only the keys the table lists for its type,
    and only those whose value is truthy: such a key then holds the
    entity built from its value, every other key keeps its entry, and
    the transform returns the mapping it was given (the empty string for
    a PublicEvent, which leaves the mapping alone).  In particular the
    ForkEvent transform maps the empty mapping to itself. *)
Theorem transform_frame :
  (∀ t d,
     payload_ok t d = true →
     ∃ r d',
       transform (VStr t) (VDict d) = Ok (r, VDict d')
       ∧ r = (if String.eqb t "PublicEvent" then VStr "" else VDict d')
       ∧ (∀ k c, (k, c) ∈ promoted t → truthy (dict_get d k) = true →
                 d' !! k = Some (VObj c (dict_get d k)))
       ∧ (∀ k c, (k, c) ∈ promoted t → truthy (dict_get d k) = false →
                 d' !! k = d !! k)
       ∧ (∀ k, k ∉ (promoted t).*1 → d' !! k = d !! k))
  ∧ promoted "IssueCommentEvent"
    = [("issue", Issue); ("comment", IssueComment)]
  ∧ transform (VStr "ForkEvent") (VDict ∅) = Ok (VDict ∅, VDict ∅).
Proof.
  split; [| split; vm_compute; reflexivity].
  intros t d Hok. pose proof (payload_ok_spec _ _ Hok) as Hall.
  pose proof (promoted_NoDup t) as Hnd.
  rewrite transform_table. unfold table_transform.
  destruct (String.eqb_spec t "PublicEvent") as [-> | Hne].
  - exists (VStr ""), d. split; [done |]. split; [done |].
    split; [| split]; try done; intros k c Hin; by apply elem_of_nil in Hin.
  - rewrite (promote_all_ok _ _ Hnd Hall). simpl.
    eexists _, _. split; [done |]. split; [done |].
    split; [| split].
    + intros k c Hin Ht. by rewrite (promote_map_listed _ _ _ _ Hnd Hin), Ht.
    + intros k c Hin Ht. by rewrite (promote_map_listed _ _ _ _ Hnd Hin), Ht.
    + intros k Hk. by apply promote_map_frame.
Qed.

Lemma transform_frame_witness :
  ∃ r d',
    transform (VStr "IssueCommentEvent") (VDict issue_comment_payload)
    = Ok (r, VDict d')
    ∧ d' !! "issue"
      = Some (VObj Issue (VDict (dict [("number", VInt 7)])))
    ∧ d' !! "comment"
      = Some (VObj IssueComment (VDict (dict [("body", VStr "hello")])))
    ∧ d' !! "extra" = Some (VStr "x").
Proof.
  destruct (proj1 transform_frame "IssueCommentEvent" issue_comment_payload)
    as (r & d' & Hrun & _ & Hyes & _ & Hframe).
  { vm_compute. reflexivity. }
  exists r, d'. split; [exact Hrun |]. split; [| split].
  - rewrite (Hyes "issue" Issue).
    + vm_compute. reflexivity.
    + vm_compute. apply list_elem_of_here.
    + vm_compute. reflexivity.
  - rewrite (Hyes "comment" IssueComment).
    + vm_compute. reflexivity.
    + vm_compute. apply list_elem_of_further, list_elem_of_here.
    + vm_compute. reflexivity.
  - rewrite (Hframe "extra").
    + vm_compute. reflexivity.
    + apply (bool_decide_unpack _). vm_compute. exact I.
Defined.

(** C7.  There are 19 registered type names, and for a type string that
    is none of them the Dispatcher returns the payload it was given,
    whatever it is, and leaves it as it was. *)
Theorem identity_fallback t p :
  t ∉ registered →
  length registered = 19 ∧ transform (VStr t) p = Ok (p, p).
Proof.
  intros Hout. split; [reflexivity |].
  rewrite transform_str, handlers_unregistered by done. reflexivity.
Qed.

Lemma identity_fallback_witness :
  transform (VStr "DeploymentEvent") (VDict issue_comment_payload)
  = Ok (VDict issue_comment_payload, VDict issue_comment_payload).
Proof.
  refine (proj2 (identity_fallback "DeploymentEvent"
                   (VDict issue_comment_payload) _)).
  apply (bool_decide_unpack _). vm_compute. exact I.
Defined.

(** C8.  For a PublicEvent the registered transform returns the empty
    string on every payload value, and does not touch the payload. *)
Theorem public_event_payload p :
  transform (VStr "PublicEvent") p = Ok (VStr "", p).
Proof. by rewrite transform_table. Qed.

(** C9 (counterexample).  A type that does not end in "Event" loses its
    last five characters all the same: "Deployment" renders as "Deplo",
    though it has no "Event" suffix to strip. *)
Lemma repr_counterexample :
  let event := dict [("type", VStr "Deployment")] in
  decode (VDict event)
  = Ok (decoded event (VStr "Deployment") VNone, VDict event)
  ∧ Event._repr (decoded event (VStr "Deployment") VNone)
    = Ok "<Event [Deplo]>"
  ∧ strip_suffix "Event" "Deployment" = "Deployment"
  ∧ "Deplo" ≠ "Deployment".
Proof.
  split; [| split; [| split]];
    [vm_compute; reflexivity .. | discriminate].
Qed.

(** C9 (amended).  For an Event whose type is a string, the rendering is
    the tag around the type without its last five characters, whatever
    they are; when the type ends in "Event", that is the type with the
    suffix stripped. *)
Theorem repr_drops_five ev s :
  Event.type ev = VStr s →
  Event._repr ev = Ok ("<Event [" +:+ str_drop_last 5 s +:+ "]>")
  ∧ String.length (str_drop_last 5 s) = String.length s - 5
  ∧ (ends_with "Event" s = true →
     str_drop_last 5 s = strip_suffix "Event" s
     ∧ s = str_drop_last 5 s +:+ "Event").
Proof.
  intros Hty. split; [| split].
  - unfold Event._repr. by rewrite Hty.
  - unfold str_drop_last. rewrite substring_0_length. lia.
  - intros Hend. split.
    + unfold strip_suffix. by rewrite Hend.
    + unfold ends_with in Hend.
      apply andb_true_iff in Hend as [Hsub Hlen].
      apply String.eqb_eq in Hsub. apply Nat.leb_le in Hlen.
      simpl String.length in *. unfold str_drop_last.
      symmetry. rewrite <- Hsub. apply substring_cut. lia.
Qed.

Lemma repr_drops_five_witness :
  Event._repr (decoded push_event (VStr "PushEvent")
                 (dict_get push_event "payload"))
  = Ok "<Event [Push]>".
Proof.
  refine (proj1 (repr_drops_five
                   (decoded push_event (VStr "PushEvent")
                      (dict_get push_event "payload"))
                   "PushEvent" _)).
  reflexivity.
Defined.

(** C10 (counterexample).  A raw mapping without a type key does not
    always decode: with a repo mapping that has no name, decode raises
    KeyError. *)
Lemma decode_without_type_counterexample :
  dict [("id", VStr "42"); ("repo", VDict (dict []))] !! "type" = None
  ∧ decode (VDict (dict [("id", VStr "42"); ("repo", VDict (dict []))]))
    = Raise KeyError.
Proof. split; vm_compute; reflexivity. Qed.

(** C10 (amended).  A raw mapping without a type key is decoded like one
    with an unregistered type string: the handler is the identity
    fallback, so when the other fields go through decode returns, the
    type attribute is [None], the payload is the raw payload as it was,
    and the raw mapping is unchanged; and decode raises an exception in
    the one case exactly when it raises it in the other. *)
Theorem decode_without_type event t :
  event !! "type" = None →
  t ∉ registered →
  (∀ p, transform (dict_get event "type") p = Ok (p, p)
        ∧ transform (VStr t) p = Ok (p, p))
  ∧ (fields_ok event = true →
     decode (VDict event)
     = Ok (decoded event VNone (dict_get event "payload"), VDict event)
     ∧ decode (VDict (<["type" := VStr t]> event))
       = Ok (decoded event (VStr t) (dict_get event "payload"),
             VDict (<["type" := VStr t]> event)))
  ∧ (∀ e, decode (VDict event) = Raise e
          ↔ decode (VDict (<["type" := VStr t]> event)) = Raise e).
Proof.
  intros Hnone Hout.
  assert (dict_get event "type" = VNone) as Hty
    by (unfold dict_get; by rewrite Hnone).
  assert (∀ p, transform (VStr t) p = Ok (p, p)) as Hid.
  { intros p. rewrite transform_str, handlers_unregistered by done.
    reflexivity. }
  remember (<["type" := VStr t]> event) as event' eqn:Hev.
  assert (dict_get event' "type" = VStr t) as Hty'
    by (subst event'; apply dict_get_insert_eq).
  assert (∀ k, k ≠ "type" → dict_get event' k = dict_get event k) as Hget.
  { intros k Hk. subst event'. apply dict_get_insert_ne. congruence. }
  assert (fields_ok event' = fields_ok event) as Hfields.
  { unfold fields_ok. by rewrite !Hget. }
  assert (∀ ty r, decoded event' ty r = decoded event ty r) as Hdec.
  { intros ty r. unfold decoded. by rewrite !Hget. }
  split; [| split].
  - intros p. by rewrite Hty.
  - intros Hf. split.
    + assert (transform (dict_get event "type") (dict_get event "payload")
              = Ok (dict_get event "payload", dict_get event "payload"))
        as Ht by by rewrite Hty.
      pose proof (decode_ok _ _ _ Hf Ht) as Hrun.
      by rewrite write_back_same, Hty in Hrun.
    + assert (transform (dict_get event' "type") (dict_get event' "payload")
              = Ok (dict_get event' "payload", dict_get event' "payload"))
        as Ht by (rewrite Hty'; apply Hid).
      rewrite <- Hfields in Hf.
      pose proof (decode_ok _ _ _ Hf Ht) as Hrun.
      rewrite write_back_same, Hdec, Hty', Hget in Hrun by done.
      exact Hrun.
  - intros e. unfold decode. rewrite !update_attributes_steps.
    rewrite Hty, Hty', !Hget by done. rewrite Hid.
    change (transform VNone (dict_get event "payload"))
      with (@Ok (value * value)
              (dict_get event "payload", dict_get event "payload")).
    destruct (entity_or_none User _) as [actor | |];
      cbn [mbind result_bind]; [| done ..].
    destruct (entity_or_none Organization _) as [org | |];
      cbn [mbind result_bind]; [| done ..].
    by destruct (repo_attr _) as [repo | |].
Qed.

Lemma decode_without_type_witness :
  decode (VDict (dict [("id", VStr "42"); ("payload", VDict (dict []))]))
  = Ok (decoded (dict [("id", VStr "42"); ("payload", VDict (dict []))])
          VNone (VDict (dict [])),
        VDict (dict [("id", VStr "42"); ("payload", VDict (dict []))])).
Proof.
  refine (proj1 (proj1 (proj2 (decode_without_type
            (dict [("id", VStr "42"); ("payload", VDict (dict []))])
            "DeploymentEvent" _ _)) _)).
  - vm_compute. reflexivity.
  - apply (bool_decide_unpack _). vm_compute. exact I.
  - vm_compute. reflexivity.
Defined.

(** * Further properties of the module *)

(** ** Listing the types *)

#[export] Instance str_le_total : Total str_le.
Proof. intros s1 s2. apply String.leb_total. Qed.

Lemma assoc_is_Some {A} k (items : list (string * A)) :
  is_Some (assoc k items) ↔ k ∈ items.*1.
Proof.
  split.
  - intros [v Hv]. apply assoc_Some in Hv.
    apply list_elem_of_fmap. by exists (k, v).
  - intros Hin. destruct (assoc k items) as [v |] eqn:Hk; [by eexists |].
    exfalso. revert Hin Hk. induction items as [| [k' v] items IH]; simpl.
    + by intros ?%elem_of_nil.
    + intros [-> | Hin]%elem_of_cons.
      * by rewrite String.eqb_refl.
      * destruct (String.eqb k k'); [done | auto].
Qed.

(** X1.  [list_types()] gives the 19 registered type names in ascending
    order, each exactly once: a name is listed exactly when the table has
    a handler for it.  The order is that of the characters, so it is not
    the order of the table in the source: ForkApplyEvent comes before
    ForkEvent. *)
Theorem list_types_sorted :
  Sorted str_le list_types
  ∧ list_types ≡ₚ registered
  ∧ NoDup list_types
  ∧ (∀ t, t ∈ list_types ↔ is_Some (assoc t _payload_handlers))
  ∧ list_types
    = [ "CommitCommentEvent"; "CreateEvent"; "DeleteEvent"; "FollowEvent";
        "ForkApplyEvent"; "ForkEvent"; "GistEvent"; "GollumEvent";
        "IssueCommentEvent"; "IssuesEvent"; "MemberEvent"; "PublicEvent";
        "PullRequestEvent"; "PullRequestReviewCommentEvent"; "PushEvent";
        "ReleaseEvent"; "StatusEvent"; "TeamAddEvent"; "WatchEvent" ].
Proof.
  assert (list_types ≡ₚ registered) as Hperm
    by apply (merge_sort_Permutation str_le).
  split; [apply (Sorted_merge_sort str_le) |].
  split; [done |].
  split; [rewrite Hperm; apply registered_NoDup |].
  split; [| vm_compute; reflexivity].
  intros t. rewrite Hperm. symmetry. apply assoc_is_Some.
Qed.

(** ** Payloads and types of the wrong kind *)

Lemma key_reading_promoted t :
  t ∈ key_reading_types → promoted t ≠ [] ∧ t ≠ "PublicEvent".
Proof.
  intros Hin. unfold key_reading_types in Hin.
  repeat (apply elem_of_cons in Hin as [-> | Hin];
          [split; [vm_compute; discriminate | discriminate] |]).
  by apply elem_of_nil in Hin.
Qed.

(** X2.  A handler that reads keys needs a mapping: on a payload that is
    none ([None], a string, a number, a list), each of the eleven
    key-reading types raises AttributeError, and so does decode when the
    payload key is absent or holds such a value, before the repo is even
    looked at. *)
Theorem payload_not_mapping :
  (∀ t x,
     t ∈ key_reading_types → is_mapping x = false →
     transform (VStr t) x = Raise AttributeError)
  ∧ (∀ event t,
       nested_ok (dict_get event "actor") = true →
       nested_ok (dict_get event "org") = true →
       dict_get event "type" = VStr t →
       t ∈ key_reading_types →
       is_mapping (dict_get event "payload") = false →
       decode (VDict event) = Raise AttributeError).
Proof.
  assert (∀ t x, t ∈ key_reading_types → is_mapping x = false →
                 transform (VStr t) x = Raise AttributeError) as Htr.
  { intros t x [Hpr Hne]%key_reading_promoted Hx.
    rewrite transform_table. unfold table_transform.
    destruct (String.eqb_spec t "PublicEvent"); [done |].
    rewrite promote_all_not_mapping by done.
    by destruct (promoted t). }
  split; [exact Htr |].
  intros event t Ha Ho Hty Hin Hp.
  apply decode_transform_raise; [done .. |]. rewrite Hty. by apply Htr.
Qed.

Lemma payload_not_mapping_witness :
  decode (VDict (dict [("type", VStr "ForkEvent"); ("repo", VDict (dict []))]))
  = Raise AttributeError.
Proof.
  refine (proj2 payload_not_mapping
            (dict [("type", VStr "ForkEvent"); ("repo", VDict (dict []))])
            "ForkEvent" _ _ _ _ _).
  - vm_compute. reflexivity.
  - vm_compute. reflexivity.
  - vm_compute. reflexivity.
  - apply (bool_decide_unpack _). vm_compute. exact I.
  - vm_compute. reflexivity.
Defined.

(** X3.  The seven registered types whose handler is [identity] return
    the payload they are given, whatever it is, mapping or not, and leave
    it as it was. *)
Theorem identity_types_pass t p :
  t ∈ identity_types → transform (VStr t) p = Ok (p, p).
Proof.
  intros Hin. unfold identity_types in Hin.
  repeat (apply elem_of_cons in Hin as [-> | Hin]; [reflexivity |]).
  by apply elem_of_nil in Hin.
Qed.

Lemma identity_types_pass_witness :
  transform (VStr "WatchEvent") VNone = Ok (VNone, VNone).
Proof.
  refine (identity_types_pass "WatchEvent" VNone _).
  apply (bool_decide_unpack _). vm_compute. exact I.
Defined.

(** X4.  A type that is not a string: a list or a mapping cannot be
    looked up in the table and decode raises TypeError; any other value
    (a number, a boolean, [None]) selects the identity fallback, so the
    payload passes through and the raw mapping is left as it was. *)
Theorem decode_type_not_string event :
  nested_ok (dict_get event "actor") = true →
  nested_ok (dict_get event "org") = true →
  (∀ s, dict_get event "type" ≠ VStr s) →
  (hashable (dict_get event "type") = false →
   decode (VDict event) = Raise TypeError)
  ∧ (hashable (dict_get event "type") = true →
     repo_ok (dict_get event "repo") = true →
     decode (VDict event)
     = Ok (decoded event (dict_get event "type") (dict_get event "payload"),
           VDict event)).
Proof.
  intros Ha Ho Hns. split.
  - intros Hh. apply decode_transform_raise; [done .. |].
    unfold transform, handlers_get. by rewrite Hh.
  - intros Hh Hr.
    assert (fields_ok event = true) as Hf
      by (unfold fields_ok; by rewrite Ha, Ho, Hr).
    assert (transform (dict_get event "type") (dict_get event "payload")
            = Ok (dict_get event "payload", dict_get event "payload")) as Ht.
    { unfold transform, handlers_get. rewrite Hh.
      destruct (dict_get event "type") as [| | | s | | | |]; try done.
      by destruct (Hns s). }
    pose proof (decode_ok _ _ _ Hf Ht) as Hrun.
    by rewrite write_back_same in Hrun.
Qed.

Lemma decode_type_not_string_witness :
  decode (VDict (dict [("type", VList [VStr "PushEvent"])])) = Raise TypeError.
Proof.
  refine (proj1 (decode_type_not_string
                   (dict [("type", VList [VStr "PushEvent"])]) _ _ _) _).
  - vm_compute. reflexivity.
  - vm_compute. reflexivity.
  - intros s. vm_compute. discriminate.
  - vm_compute. reflexivity.
Defined.

(** ** The repo attribute *)

(** X5.  What a raw repo that is not a mapping with a name string does to
    decode, once the fields before it have gone through: an absent or
    [None] repo gives the attribute [None]; a mapping without a name
    raises KeyError; a name that is not a string raises AttributeError;
    and any other value, even a falsy one such as the empty string,
    raises TypeError, because the guard is [is not None]. *)
Theorem decode_repo_errors event r a :
  nested_ok (dict_get event "actor") = true →
  nested_ok (dict_get event "org") = true →
  transform (dict_get event "type") (dict_get event "payload") = Ok (r, a) →
  (dict_get event "repo" = VNone →
   ∃ ev raw', decode (VDict event) = Ok (ev, raw') ∧ Event.repo ev = None)
  ∧ (∀ rd, dict_get event "repo" = VDict rd → rd !! "name" = None →
           decode (VDict event) = Raise KeyError)
  ∧ (∀ rd v, dict_get event "repo" = VDict rd → rd !! "name" = Some v →
             (∀ s, v ≠ VStr s) →
             decode (VDict event) = Raise AttributeError)
  ∧ (is_mapping (dict_get event "repo") = false →
     dict_get event "repo" ≠ VNone →
     decode (VDict event) = Raise TypeError).
Proof.
  intros Ha Ho Ht. rewrite (decode_steps _ Ha Ho), Ht.
  cbn [mbind result_bind fst snd].
  split; [| split; [| split]].
  - intros ->. by eexists _, _.
  - intros rd -> Hname. cbn [repo_attr py_getitem]. by rewrite Hname.
  - intros rd v -> Hname Hv. cbn [repo_attr py_getitem]. rewrite Hname.
    cbn [mbind result_bind].
    destruct v as [| | | s | | | |]; try done. by destruct (Hv s).
  - intros Hm Hn. by destruct (dict_get event "repo").
Qed.

Lemma decode_repo_errors_witness :
  decode (VDict (dict [("repo", VStr "")])) = Raise TypeError.
Proof.
  refine (proj2 (proj2 (proj2 (decode_repo_errors
            (dict [("repo", VStr "")]) VNone VNone _ _ _))) _ _).
  - vm_compute. reflexivity.
  - vm_compute. reflexivity.
  - vm_compute. reflexivity.
  - vm_compute. reflexivity.
  - vm_compute. discriminate.
Defined.

(** ** What decoding does to its input *)

(** X6.  Decoding works on the raw mapping it is given.  Afterwards the
    mapping has the keys it had, every key but ["payload"] holds what it
    held, and, unless the type is PublicEvent, the payload entry is the
    Event's payload: the entities the handler built are in the caller's
    mapping too.  For a PublicEvent the mapping is untouched and the
    Event's payload is the empty string. *)
Theorem decode_updates_in_place event ev raw' :
  decode (VDict event) = Ok (ev, raw') →
  ∃ event',
    raw' = VDict event'
    ∧ dom event' = dom event
    ∧ (∀ k, k ≠ "payload" → event' !! k = event !! k)
    ∧ (is_Some (event !! "payload") →
       Event.type ev ≠ VStr "PublicEvent" →
       event' !! "payload" = Some (Event.payload ev))
    ∧ (Event.type ev = VStr "PublicEvent" →
       event' = event ∧ Event.payload ev = VStr "").
Proof.
  intros (_ & r & a & Ht & -> & ->)%decode_inv.
  exists (write_back event a). split; [done |].
  cbn [decoded Event.type Event.payload].
  split; [| split; [| split]].
  - unfold write_back. destruct (event !! "payload") eqn:Hp; [| done].
    apply dom_insert_lookup_L. by rewrite Hp.
  - intros k Hk. unfold write_back.
    destruct (event !! "payload"); [| done]. by rewrite lookup_insert_ne.
  - intros [v Hv] Hne. unfold write_back. rewrite Hv, lookup_insert_eq.
    by rewrite (transform_returns_argument _ _ _ _ Ht Hne).
  - intros Hty. rewrite Hty, transform_table in Ht.
    injection Ht as <- <-. by rewrite write_back_same.
Qed.

Lemma decode_updates_in_place_witness :
  ∃ event',
    VDict commit_comment_event_after = VDict event'
    ∧ event' !! "payload"
      = Some (dict_get commit_comment_event_after "payload").
Proof.
  destruct (decode_updates_in_place commit_comment_event
              (decoded commit_comment_event (VStr "CommitCommentEvent")
                 (dict_get commit_comment_event_after "payload"))
              (VDict commit_comment_event_after))
    as (event' & Heq & _ & _ & Hp & _).
  { vm_compute. reflexivity. }
  exists event'. split; [exact Heq |]. apply Hp.
  - eexists. vm_compute. reflexivity.
  - discriminate.
Defined.

Lemma dom_promote_map ks (d : gmap string value) :
  dom (promote_map ks d) = dom d.
Proof.
  revert d. induction ks as [| [k c] ks IH]; intros d; [done |]. simpl.
  rewrite IH. destruct (truthy (dict_get d k)) eqn:Ht; [| done].
  apply dom_insert_lookup_L. by rewrite (truthy_dict_get _ _ Ht).
Qed.

(** X7.  A transform never adds a key to the payload and never removes
    one: whenever it returns, the mapping it leaves has exactly the keys
    of the mapping it was given. *)
Theorem transform_keeps_keys ty d r a :
  transform ty (VDict d) = Ok (r, a) →
  ∃ d', a = VDict d' ∧ dom d' = dom d.
Proof.
  intros Hrun.
  destruct ty as [| b | n | t | l | d0 | c j | ]; try discriminate;
    try (injection Hrun as <- <-; by eexists).
  rewrite transform_table in Hrun. unfold table_transform in Hrun.
  destruct (String.eqb t "PublicEvent");
    [injection Hrun as <- <-; by eexists |].
  apply bind_Ok in Hrun as (p & Hp & [= <- <-]).
  destruct (promote_all_rerun _ _ _ (promoted_NoDup t) Hp) as (-> & _).
  eexists. split; [done |]. apply dom_promote_map.
Qed.

Lemma transform_keeps_keys_witness :
  ∃ d', VDict (dict [("comment",
                      VObj RepoComment (VDict (dict [("id", VInt 1)])))])
        = VDict d'
        ∧ dom d' = dom (dict [("comment", VDict (dict [("id", VInt 1)]))]).
Proof.
  refine (transform_keeps_keys (VStr "CommitCommentEvent") _ _ _ _).
  vm_compute. reflexivity.
Defined.


Lemma forallb_nested_ok_insert (ks : list (string * entity))
    (d : gmap string value) k v :
  k ∉ ks.*1 →
  forallb (fun kc => nested_ok (dict_get (<[k := v]> d) kc.1)) ks
  = forallb (fun kc => nested_ok (dict_get d kc.1)) ks.
Proof.
  induction ks as [| [k' c] ks IH]; [done |]. simpl.
  intros [Hne Hk]%not_elem_of_cons.
  by rewrite dict_get_insert_ne, IH.
Qed.

Lemma promote_all_fail ks (d : gmap string value) :
  NoDup ks.*1 →
  forallb (fun kc => nested_ok (dict_get d kc.1)) ks = false →
  promote_all ks (VDict d) = Unspecified.
Proof.
  revert d. induction ks as [| [k c] ks IH]; intros d Hnd Hall; [done |].
  simpl in Hnd, Hall. apply NoDup_cons in Hnd as [Hk Hnd].
  cbn [promote_all]. rewrite promote_dict. unfold nested_ok in Hall at 1.
  destruct (truthy (dict_get d k)) eqn:Ht; simpl in Hall.
  - destruct (is_mapping (dict_get d k)); [| done]. simpl in Hall.
    cbn [mbind result_bind]. apply IH; [done |].
    by rewrite forallb_nested_ok_insert.
  - cbn [mbind result_bind]. by apply IH.
Qed.

Lemma transform_payload_bad t d :
  payload_ok t d = false → transform (VStr t) (VDict d) = Unspecified.
Proof.
  intros Hbad. rewrite transform_table. unfold table_transform.
  destruct (String.eqb_spec t "PublicEvent") as [-> | _]; [done |].
  by rewrite (promote_all_fail _ _ (promoted_NoDup t) Hbad).
Qed.

Lemma transform_payload_good t d :
  payload_ok t d = true →
  transform (VStr t) (VDict d)
  = Ok (if String.eqb t "PublicEvent" then VStr ""
        else VDict (promote_map (promoted t) d),
        VDict (promote_map (promoted t) d)).
Proof.
  intros Hgood. rewrite transform_table. unfold table_transform.
  destruct (String.eqb_spec t "PublicEvent") as [-> | _]; [done |].
  by rewrite (promote_all_ok _ _ (promoted_NoDup t)
                (payload_ok_spec _ _ Hgood)).
Qed.



(** ** The repo attribute and the name it comes from *)

Lemma str_split_not_nil sep s : str_split sep s ≠ [].
Proof.
  intros H. pose proof (str_split_length sep s) as Hlen.
  by rewrite H in Hlen.
Qed.

Lemma str_join_split sep s :
  str_join (String sep EmptyString) (str_split sep s) = s.
Proof.
  induction s as [| c s IH]; [done |]. cbn [str_split].
  pose proof (str_split_not_nil sep s) as Hne.
  destruct (Ascii.eqb_spec c sep) as [-> | _].
  - destruct (str_split sep s) as [| w ws] eqn:Hs; [done |].
    change (String sep (str_join (String sep EmptyString) (w :: ws))
            = String sep s).
    by rewrite IH.
  - destruct (str_split sep s) as [| w ws] eqn:Hs; [done |].
    destruct ws as [| w' ws].
    + simpl in *. by rewrite IH.
    + change (String c (str_join (String sep EmptyString) (w :: w' :: ws))
              = String c s).
      by rewrite IH.
Qed.

Lemma str_split_pieces sep s :
  Forall (fun w => count_char sep w = 0) (str_split sep s).
Proof.
  induction s as [| c s IH]; [by repeat constructor |]. cbn [str_split].
  destruct (Ascii.eqb c sep) eqn:Hc; [by constructor |].
  destruct (str_split sep s) as [| w ws].
  { constructor; [simpl; by rewrite Hc | constructor]. }
  apply Forall_cons in IH as [Hw Hws]. constructor; [| done].
  simpl. by rewrite Hc, Hw.
Qed.

(** X9.  The repo attribute and the raw name determine each other: the
    pieces contain no "/", and joined with "/" they give the name back.
    So a name without "/" gives a one-piece tuple, and an empty piece
    stands for a leading, trailing or doubled "/". *)
Theorem decode_repo_round_trip event rd s ev raw' :
  event !! "repo" = Some (VDict rd) →
  rd !! "name" = Some (VStr s) →
  decode (VDict event) = Ok (ev, raw') →
  ∃ pieces,
    Event.repo ev = Some pieces
    ∧ str_join "/" pieces = s
    ∧ Forall (fun w => count_char "/" w = 0) pieces
    ∧ (count_char "/" s = 0 → pieces = [s]).
Proof.
  intros Hrepo Hname (_ & r & a & _ & -> & _)%decode_inv.
  exists (str_split "/" s). cbn [decoded Event.repo].
  unfold dict_get. rewrite Hrepo. cbn [default from_option id repo_value].
  rewrite Hname.
  split; [done |]. split; [apply str_join_split |].
  split; [apply str_split_pieces | apply str_split_no_sep].
Qed.

Lemma decode_repo_round_trip_witness :
  ∃ pieces,
    Event.repo (decoded push_event (VStr "PushEvent")
                  (dict_get push_event "payload")) = Some pieces
    ∧ str_join "/" pieces = "octocat/Hello-World".
Proof.
  destruct (decode_repo_round_trip push_event
              (dict [("name", VStr "octocat/Hello-World")])
              "octocat/Hello-World"
              (decoded push_event (VStr "PushEvent")
                 (dict_get push_event "payload"))
              (VDict push_event))
    as (pieces & Hr & Hj & _).
  - vm_compute. reflexivity.
  - vm_compute. reflexivity.
  - vm_compute. reflexivity.
  - exists pieces. by split.
Defined.

(** ** The tag of an Event *)

(** X10.  Every registered type name ends in "Event", so for an Event of
    a registered type the tag holds the name without that suffix. *)
Theorem repr_registered ev t :
  Event.type ev = VStr t →
  t ∈ registered →
  Event._repr ev = Ok ("<Event [" +:+ strip_suffix "Event" t +:+ "]>")
  ∧ t = strip_suffix "Event" t +:+ "Event".
Proof.
  intros Hty Hin. unfold Event._repr. rewrite Hty.
  unfold registered in Hin. simpl in Hin.
  repeat (apply elem_of_cons in Hin as [-> | Hin];
          [split; vm_compute; reflexivity |]).
  by apply elem_of_nil in Hin.
Qed.

Lemma repr_registered_witness :
  Event._repr (decoded commit_comment_event (VStr "CommitCommentEvent") VNone)
  = Ok "<Event [CommitComment]>".
Proof.
  refine (proj1 (repr_registered
                   (decoded commit_comment_event (VStr "CommitCommentEvent")
                      VNone)
                   "CommitCommentEvent" _ _)).
  - reflexivity.
  - apply (bool_decide_unpack _). vm_compute. exact I.
Defined.

(** X11.  The type attribute of a decoded Event is the raw type, and it
    is never a list or a mapping.  The tag exists exactly when the type
    is a string: an Event decoded from a mapping without a type key, or
    with a number as type, cannot be rendered, [_repr] raises
    TypeError. *)
Theorem repr_of_decoded event ev raw' :
  decode (VDict event) = Ok (ev, raw') →
  Event.type ev = dict_get event "type"
  ∧ hashable (Event.type ev) = true
  ∧ ((∃ s, Event.type ev = VStr s) ↔ (∃ tag, Event._repr ev = Ok tag))
  ∧ ((∀ s, Event.type ev ≠ VStr s) → Event._repr ev = Raise TypeError)
  ∧ (event !! "type" = None → Event._repr ev = Raise TypeError).
Proof.
  intros (_ & r & a & Ht & -> & _)%decode_inv.
  cbn [decoded Event.type]. unfold Event._repr. cbn [decoded Event.type].
  split; [done |]. split; [| split; [| split]].
  - unfold transform, handlers_get in Ht.
    by destruct (hashable (dict_get event "type")).
  - split.
    + intros [s ->]. by eexists.
    + intros [tag Htag].
      destruct (dict_get event "type"); try discriminate. by eexists.
  - intros Hns. destruct (dict_get event "type") as [| | | s | | | |];
      try done. by destruct (Hns s).
  - intros Hnone. unfold dict_get. by rewrite Hnone.
Qed.

Lemma repr_of_decoded_witness :
  Event._repr (decoded (dict [("id", VStr "42")]) VNone VNone)
  = Raise TypeError.
Proof.
  refine (proj2 (proj2 (proj2 (proj2 (repr_of_decoded
            (dict [("id", VStr "42")])
            (decoded (dict [("id", VStr "42")]) VNone VNone)
            (VDict (dict [("id", VStr "42")])) _)))) _).
  - vm_compute. reflexivity.
  - vm_compute. reflexivity.
Defined.

(** ** The attributes of a decoded Event *)

(** X12.  The attributes copied from the raw mapping: id and public are
    the raw values ([None] when the key is absent), created_at is the
    parsed raw timestamp; actor and org are [None] when the raw value is
    absent or falsy, an empty mapping included, and the entity built from
    the raw mapping otherwise; the repo is [None] only when the raw repo
    is absent or [None]. *)
Theorem decode_fields event ev raw' :
  decode (VDict event) = Ok (ev, raw') →
  Event.id ev = dict_get event "id"
  ∧ Event.public ev = dict_get event "public"
  ∧ Event.created_at ev = _strptime (dict_get event "created_at")
  ∧ (truthy (dict_get event "actor") = false → Event.actor ev = VNone)
  ∧ (truthy (dict_get event "actor") = true →
     Event.actor ev = VObj User (dict_get event "actor")
     ∧ is_mapping (dict_get event "actor") = true)
  ∧ (truthy (dict_get event "org") = false → Event.org ev = VNone)
  ∧ (truthy (dict_get event "org") = true →
     Event.org ev = VObj Organization (dict_get event "org")
     ∧ is_mapping (dict_get event "org") = true)
  ∧ (Event.repo ev = None ↔ dict_get event "repo" = VNone).
Proof.
  intros (Hf & r & a & _ & -> & _)%decode_inv.
  unfold fields_ok in Hf.
  apply andb_true_iff in Hf as [[Ha Ho]%andb_true_iff Hr].
  unfold nested_ok in Ha, Ho.
  cbn [decoded Event.id Event.public Event.created_at Event.actor Event.org
       Event.repo].
  unfold entity_value.
  split; [done |]. split; [done |]. split; [done |].
  split; [by intros -> |]. split; [intros Ht; by rewrite Ht in Ha |- * |].
  split; [by intros -> |]. split; [intros Ht; by rewrite Ht in Ho |- * |].
  unfold repo_ok, repo_value in *.
  destruct (dict_get event "repo") as [| | | | | rd | |]; try done.
  by destruct (rd !! "name") as [[| | | s | | | |] |].
Qed.

Lemma decode_fields_witness :
  Event.actor (decoded (dict [("actor", VDict (dict [])); ("id", VInt 7)])
                 VNone VNone) = VNone.
Proof.
  refine (proj1 (proj2 (proj2 (proj2 (decode_fields
            (dict [("actor", VDict (dict [])); ("id", VInt 7)])
            (decoded (dict [("actor", VDict (dict [])); ("id", VInt 7)])
               VNone VNone)
            (VDict (dict [("actor", VDict (dict [])); ("id", VInt 7)]))
            _)))) _).
  - vm_compute. reflexivity.
  - vm_compute. reflexivity.
Defined.

(** X13.  For a type string and a payload mapping, when actor and org
    are absent, falsy or mappings and the repo is absent, [None] or a
    mapping with a name string: if every key the type's handler reads is
    absent, falsy or a nested mapping, decode returns the Event whose
    payload is the mapping with each truthy listed key replaced by its
    entity (the empty string for a PublicEvent), and the raw mapping
    holds that same payload; if not, the handler has handed a
    constructor a value that is not a nested mapping, and the outcome of
    decode is the constructor's. *)
Theorem decode_returns event t d :
  dict_get event "type" = VStr t →
  dict_get event "payload" = VDict d →
  fields_ok event = true →
  (payload_ok t d = true →
   decode (VDict event)
   = Ok (decoded event (VStr t)
           (if String.eqb t "PublicEvent" then VStr ""
            else VDict (promote_map (promoted t) d)),
         VDict (write_back event (VDict (promote_map (promoted t) d)))))
  ∧ (payload_ok t d = false → decode (VDict event) = Unspecified).
Proof.
  intros Hty Hp Hf. split.
  - intros Hok. rewrite <- Hty at 1. apply decode_ok; [done |].
    rewrite Hty, Hp. by apply transform_payload_good.
  - intros Hbad. unfold fields_ok in Hf.
    apply andb_true_iff in Hf as [[Ha Ho]%andb_true_iff _].
    apply decode_transform_unspecified; [done .. |].
    rewrite Hty, Hp. by apply transform_payload_bad.
Qed.

Lemma decode_returns_witness :
  decode (VDict commit_comment_event)
  = Ok (decoded commit_comment_event (VStr "CommitCommentEvent")
          (dict_get commit_comment_event_after "payload"),
        VDict commit_comment_event_after).
Proof.
  pose proof (proj1 (decode_returns commit_comment_event "CommitCommentEvent"
                       (dict [("comment", VDict (dict [("id", VInt 1)]))])
                       eq_refl eq_refl eq_refl) eq_refl) as Hrun.
  rewrite Hrun. vm_compute. reflexivity.
Defined.

(** ** Decoding the same mapping again *)

(** X14.  Decoding the mapping a first call has left.  When the first
    call replaced no payload key, the mapping is unchanged and the second
    call gives the same Event.  When it replaced one, the second call
    finds the entity where the first found a raw mapping and hands that
    entity to the constructor: an argument the constructor is not known
    to accept, so that the outcome is the constructor's. *)
Theorem decode_twice event ev raw' :
  decode (VDict event) = Ok (ev, raw') →
  if replaces (dict_get event "type") (dict_get event "payload")
  then decode raw' = Unspecified
  else raw' = VDict event ∧ decode raw' = Ok (ev, raw').
Proof.
  intros Hrun.
  pose proof Hrun as (Hf & r & a & Ht & -> & ->)%decode_inv.
  apply transform_rerun in Ht as Hre.
  destruct (replaces _ _) eqn:Hrep.
  - destruct Hre as [Hre _]. specialize (Hre eq_refl).
    assert (dict_get (write_back event a) "payload" = a) as Hp.
    { unfold replaces in Hrep. unfold write_back, dict_get in *.
      destruct (event !! "payload"); [by rewrite lookup_insert_eq |].
      simpl in Hrep. by destruct (default VNone (event !! "type")). }
    unfold fields_ok in Hf.
    apply andb_true_iff in Hf as [[Ha Ho]%andb_true_iff _].
    apply decode_transform_unspecified.
    + by rewrite dict_get_write_back.
    + by rewrite dict_get_write_back.
    + by rewrite Hp, dict_get_write_back.
  - destruct Hre as [_ Hre]. destruct (Hre eq_refl) as [-> Ht'].
    rewrite write_back_same in Hrun |- *. by split.
Qed.

Lemma decode_twice_witness :
  decode (VDict push_event)
  = Ok (decoded push_event (VStr "PushEvent") (dict_get push_event "payload"),
        VDict push_event).
Proof.
  refine (proj2 (decode_twice push_event _ (VDict push_event) _)).
  vm_compute. reflexivity.
Defined.
